(** * multimedia.c: the recording session of the Atari800 emulator

    A shallow embedding of [src/multimedia.c], the layer that routes the
    emulator's sound and video output to at most one open recording file,
    with both [SOUND] and [AVI_VIDEO_RECORDING] defined.

    The two static file pointers of the translation unit are the session
    state.  The encoders of [file_export.h] are external: they are taken as
    an interface ([FileExport]) acting on an abstract [World] (file system,
    encoder counters).  Every call that crosses this interface is appended,
    with the value it returned, to a ghost [trace], so that "which encoder
    calls were made, and in which order" can be stated. *)

From Stdlib Require Import ZArith NArith List String Bool Lia.
From Stdlib Require Import Init.Byte.
Import ListNotations.

Local Open Scope Z_scope.

(** ** C data *)

(** [TRUE] and [FALSE] of atari.h, as C [int]s. *)
Definition TRUE : Z := 1.
Definition FALSE : Z := 0.

(** A [FILE] is identified by a stream number; a [FILE *] is [NULL] or
    points to one. *)
Definition FILE : Type := N.
Definition FILE_ptr : Type := option FILE.

(** [const unsigned char *]: [NULL] or a buffer of bytes. *)
Definition UBYTE_ptr : Type := option (list byte).

Definition NULL {A : Type} : option A := None.

(** [p != NULL], as the C [int] it evaluates to. *)
Definition not_null {A : Type} (p : option A) : bool :=
  match p with
  | Some _ => true
  | None => false
  end.

Definition int_of_bool (b : bool) : Z := if b then 1 else 0.

(** ** The encoder interface (file_export.h) *)

Class FileExport (World : Type) : Type := {
  WAV_OpenFile : string -> World -> FILE_ptr * World;
  WAV_WriteSamples : UBYTE_ptr -> N -> FILE_ptr -> World -> Z * World;
  WAV_CloseFile : FILE_ptr -> World -> Z * World;
  AVI_OpenFile : string -> World -> FILE_ptr * World;
  AVI_AddVideoFrame : FILE_ptr -> World -> Z * World;
  AVI_AddAudioSamples : UBYTE_ptr -> N -> FILE_ptr -> World -> Z * World;
  AVI_CloseFile : FILE_ptr -> World -> Z * World
}.

(** One record per call made through the interface: the arguments and the
    value that came back. *)
Inductive EncoderCall : Type :=
| Call_WAV_OpenFile (szFileName : string) (result : FILE_ptr)
| Call_WAV_WriteSamples (buf : UBYTE_ptr) (num : N) (fp : FILE_ptr) (result : Z)
| Call_WAV_CloseFile (fp : FILE_ptr) (result : Z)
| Call_AVI_OpenFile (szFileName : string) (result : FILE_ptr)
| Call_AVI_AddVideoFrame (fp : FILE_ptr) (result : Z)
| Call_AVI_AddAudioSamples (buf : UBYTE_ptr) (num : N) (fp : FILE_ptr) (result : Z)
| Call_AVI_CloseFile (fp : FILE_ptr) (result : Z).

(** ** Program state and the monad of the embedding *)

Record State (World : Type) : Type := mkState {
  sndoutput : FILE_ptr;       (* static FILE *sndoutput = NULL; *)
  avioutput : FILE_ptr;       (* static FILE *avioutput = NULL; *)
  world : World;              (* whatever the encoders read and write *)
  trace : list EncoderCall    (* ghost: encoder calls so far, oldest first *)
}.

Arguments mkState {World} _ _ _ _.
Arguments sndoutput {World} _.
Arguments avioutput {World} _.
Arguments world {World} _.
Arguments trace {World} _.

(** The state at program start: both statics hold their initialiser. *)
Definition initial {World : Type} (w : World) : State World :=
  mkState NULL NULL w [].

(** The session proper: the two static variables of multimedia.c. *)
Definition statics {World : Type} (s : State World) : FILE_ptr * FILE_ptr :=
  (sndoutput s, avioutput s).

Definition M (World A : Type) : Type := State World -> A * State World.

Definition ret {World A : Type} (a : A) : M World A := fun s => (a, s).

Definition bind {World A B : Type} (m : M World A) (k : A -> M World B)
  : M World B :=
  fun s => let (a, s') := m s in k a s'.

Declare Scope mm_scope.
Delimit Scope mm_scope with mm.
Notation "x <- m ;; k" := (bind m (fun x => k))
  (at level 61, m at next level, right associativity) : mm_scope.
Notation "m ;; k" := (bind m (fun _ => k))
  (at level 61, right associativity) : mm_scope.

Local Open Scope mm_scope.

Section Embedding.
Context {World : Type} {E : FileExport World}.

Definition get_sndoutput : M World FILE_ptr := fun s => (sndoutput s, s).
Definition get_avioutput : M World FILE_ptr := fun s => (avioutput s, s).

Definition set_sndoutput (p : FILE_ptr) : M World unit :=
  fun s => (tt, mkState p (avioutput s) (world s) (trace s)).
Definition set_avioutput (p : FILE_ptr) : M World unit :=
  fun s => (tt, mkState (sndoutput s) p (world s) (trace s)).

(** A call through file_export.h: run the encoder on the world and
    record the call with its result. *)
Definition extern {A : Type} (f : World -> A * World)
    (record : A -> EncoderCall) : M World A :=
  fun s =>
    let (r, w) := f (world s) in
    (r, mkState (sndoutput s) (avioutput s) w (trace s ++ [record r])).

(** ** The functions of multimedia.c *)

(** [return FALSE || sndoutput != NULL || avioutput != NULL;] *)
Definition Multimedia_IsFileOpen : M World Z :=
  snd_ <- get_sndoutput ;;
  avi_ <- get_avioutput ;;
  ret (int_of_bool (false || not_null snd_ || not_null avi_)).

Definition Multimedia_CloseFile : M World Z :=
  let bSuccess := TRUE in
  snd_ <- get_sndoutput ;;
  bSuccess <- (if not_null snd_ then
                 r <- extern (WAV_CloseFile snd_) (Call_WAV_CloseFile snd_) ;;
                 set_sndoutput NULL ;;
                 ret r
               else ret bSuccess) ;;
  avi_ <- get_avioutput ;;
  bSuccess <- (if not_null avi_ then
                 r <- extern (AVI_CloseFile avi_) (Call_AVI_CloseFile avi_) ;;
                 set_avioutput NULL ;;
                 ret r
               else ret bSuccess) ;;
  ret bSuccess.

Definition Multimedia_OpenSoundFile (szFileName : string) : M World Z :=
  Multimedia_CloseFile ;;
  p <- extern (WAV_OpenFile szFileName) (Call_WAV_OpenFile szFileName) ;;
  set_sndoutput p ;;
  snd_ <- get_sndoutput ;;
  ret (int_of_bool (not_null snd_)).

Definition Multimedia_WriteAudio (ucBuffer : UBYTE_ptr) (uiSize : N)
  : M World Z :=
  let result := 0 in
  if not_null ucBuffer && negb (uiSize =? 0)%N then
    snd_ <- get_sndoutput ;;
    if not_null snd_ then
      result <- extern (WAV_WriteSamples ucBuffer uiSize snd_)
                       (Call_WAV_WriteSamples ucBuffer uiSize snd_) ;;
      (if result =? 0 then Multimedia_CloseFile ;; ret tt else ret tt) ;;
      ret result
    else
      avi_ <- get_avioutput ;;
      if not_null avi_ then
        result <- extern (AVI_AddAudioSamples ucBuffer uiSize avi_)
                         (Call_AVI_AddAudioSamples ucBuffer uiSize avi_) ;;
        (if result =? 0 then Multimedia_CloseFile ;; ret tt else ret tt) ;;
        ret result
      else ret result
  else ret result.

Definition Multimedia_OpenVideoFile (szFileName : string) : M World Z :=
  Multimedia_CloseFile ;;
  p <- extern (AVI_OpenFile szFileName) (Call_AVI_OpenFile szFileName) ;;
  set_avioutput p ;;
  avi_ <- get_avioutput ;;
  ret (int_of_bool (not_null avi_)).

Definition Multimedia_WriteVideo : M World Z :=
  let result := 0 in
  avi_ <- get_avioutput ;;
  if not_null avi_ then
    result <- extern (AVI_AddVideoFrame avi_) (Call_AVI_AddVideoFrame avi_) ;;
    (if result =? 0 then Multimedia_CloseFile ;; ret tt else ret tt) ;;
    ret result
  else ret result.

End Embedding.

(** ** Callers: sequences of requests *)

(** The entry points of multimedia.h, as a caller issues them. *)
Inductive Request : Type :=
| Req_IsFileOpen
| Req_CloseFile
| Req_OpenSoundFile (szFileName : string)
| Req_WriteAudio (ucBuffer : UBYTE_ptr) (uiSize : N)
| Req_OpenVideoFile (szFileName : string)
| Req_WriteVideo.

Definition is_open_request (q : Request) : bool :=
  match q with
  | Req_OpenSoundFile _ | Req_OpenVideoFile _ => true
  | _ => false
  end.

Definition is_close_request (q : Request) : bool :=
  match q with
  | Req_CloseFile => true
  | _ => false
  end.

Definition is_write_request (q : Request) : bool :=
  match q with
  | Req_WriteAudio _ _ | Req_WriteVideo => true
  | _ => false
  end.

(** What a caller sees of one request: the value returned, and (ghost) the
    encoder calls made while it ran. *)
Record Step : Type := mkStep {
  request : Request;
  returned : Z;
  calls : list EncoderCall
}.

Section Callers.
Context {World : Type} {E : FileExport World}.

Definition exec (q : Request) : M World Z :=
  match q with
  | Req_IsFileOpen => Multimedia_IsFileOpen
  | Req_CloseFile => Multimedia_CloseFile
  | Req_OpenSoundFile szFileName => Multimedia_OpenSoundFile szFileName
  | Req_WriteAudio ucBuffer uiSize => Multimedia_WriteAudio ucBuffer uiSize
  | Req_OpenVideoFile szFileName => Multimedia_OpenVideoFile szFileName
  | Req_WriteVideo => Multimedia_WriteVideo
  end.

(** The encoder calls made by running [m] from [s]: what [m] added to the
    trace. *)
Definition made_by {A : Type} (m : M World A) (s : State World)
  : list EncoderCall :=
  skipn (List.length (trace s)) (trace (snd (m s))).

Definition step (q : Request) (s : State World) : Step * State World :=
  (mkStep q (fst (exec q s)) (made_by (exec q) s), snd (exec q s)).

(** State after a sequence of requests, oldest first. *)
Fixpoint run (qs : list Request) (s : State World) : State World :=
  match qs with
  | [] => s
  | q :: qs' => run qs' (snd (exec q s))
  end.

(** The same run, keeping what the caller saw of every request. *)
Fixpoint history (qs : list Request) (s : State World)
  : list Step * State World :=
  match qs with
  | [] => ([], s)
  | q :: qs' =>
      let (st, s') := step q s in
      let (h, s'') := history qs' s' in
      (st :: h, s'')
  end.

End Callers.

(** ** Vocabulary of the specification *)

(** At most one of the two handles is non-null. *)
Definition at_most_one {World : Type} (s : State World) : Prop :=
  sndoutput s = NULL \/ avioutput s = NULL.

(** Some handle is non-null. *)
Definition some_open {World : Type} (s : State World) : bool :=
  not_null (sndoutput s) || not_null (avioutput s).

(** An encoder write primitive that reported failure (returned zero). *)
Definition failed_write (c : EncoderCall) : bool :=
  match c with
  | Call_WAV_WriteSamples _ _ _ r => r =? 0
  | Call_AVI_AddAudioSamples _ _ _ r => r =? 0
  | Call_AVI_AddVideoFrame _ r => r =? 0
  | _ => false
  end.

Definition is_close_call (c : EncoderCall) : bool :=
  match c with
  | Call_WAV_CloseFile _ _ | Call_AVI_CloseFile _ _ => true
  | _ => false
  end.

(** A write failure: a write request during which the encoder returned 0. *)
Definition write_failure (st : Step) : bool :=
  is_write_request (request st) && existsb failed_write (calls st).

Definition open_succeeded (st : Step) : bool :=
  is_open_request (request st) && negb (returned st =? 0).

(** A step that neither opens, nor closes, nor is a write failure. *)
Definition keeps_session (st : Step) : bool :=
  negb (is_open_request (request st))
  && negb (is_close_request (request st))
  && negb (write_failure st).

(** Section 8 of the specification, in its words: "the most recent Open
    succeeded and no Close/failure has occurred since". *)
Definition spec_file_open (h : list Step) : Prop :=
  exists before o since,
    h = before ++ o :: since
    /\ open_succeeded o = true
    /\ Forall (fun st => keeps_session st = true) since.

(** The same, computed by scanning the history from the most recent step. *)
Fixpoint spec_file_open_scan (recent_first : list Step) : bool :=
  match recent_first with
  | [] => false
  | st :: older =>
      if is_open_request (request st) then negb (returned st =? 0)
      else if is_close_request (request st) then false
      else if write_failure st then false
      else spec_file_open_scan older
  end.

(** The session of the specification: its [active_target] is a variant
    over no target, an audio handle or a video handle.  A state with both
    handles set has no counterpart. *)
Inductive Target : Type :=
| NoTarget
| AudioHandle (fp : FILE)
| VideoHandle (fp : FILE).

Definition active_target {World : Type} (s : State World) : option Target :=
  match sndoutput s, avioutput s with
  | None, None => Some NoTarget
  | Some f, None => Some (AudioHandle f)
  | None, Some g => Some (VideoHandle g)
  | Some _, Some _ => None
  end.

(** Only finalize calls. *)
Definition only_closes (d : list EncoderCall) : Prop :=
  Forall (fun c => is_close_call c = true) d.

(** A candidate for the [last_audio_write_done] flag of the specification:
    a boolean read off the session state.  It tracks interleaving if it is
    false after every successful OpenVideoFile and true after every
    WriteAudio that went to the video encoder. *)
Definition tracks_interleave {World : Type} {E : FileExport World}
    (last_audio_write_done : FILE_ptr * FILE_ptr -> bool) : Prop :=
  (forall (s : State World) (szFileName : string),
      fst (Multimedia_OpenVideoFile szFileName s) = TRUE ->
      last_audio_write_done
        (statics (snd (Multimedia_OpenVideoFile szFileName s))) = false)
  /\ (forall (s : State World) (ucBuffer : UBYTE_ptr) (uiSize : N) r rest,
         made_by (Multimedia_WriteAudio ucBuffer uiSize) s
         = Call_AVI_AddAudioSamples ucBuffer uiSize (avioutput s) r :: rest ->
         last_audio_write_done
           (statics (snd (Multimedia_WriteAudio ucBuffer uiSize s))) = true).


(** ** A scripted encoder, for concrete runs

    The world is the list of values the encoders will return, in order;
    each call consumes one (and gets 0 once the script is used up).  An open
    call turns a non-zero value into the stream of that number. *)
Module Script.

Definition pop (w : list Z) : Z * list Z :=
  match w with
  | [] => (0, [])
  | r :: w' => (r, w')
  end.

Definition open (w : list Z) : FILE_ptr * list Z :=
  let (r, w') := pop w in
  ((if r =? 0 then NULL else Some (Z.to_N r)), w').

#[global] Instance encoders : FileExport (list Z) := {|
  WAV_OpenFile := fun _ => open;
  WAV_WriteSamples := fun _ _ _ => pop;
  WAV_CloseFile := fun _ => pop;
  AVI_OpenFile := fun _ => open;
  AVI_AddVideoFrame := fun _ => pop;
  AVI_AddAudioSamples := fun _ _ _ => pop;
  AVI_CloseFile := fun _ => pop
|}.



Definition pcm : UBYTE_ptr := Some [x80; x7f; x80; x7f]%byte.

End Script.

(** ** What the encoders see

    The calling discipline of file_export.h, seen from the encoders' side:
    a stream is opened only when none is open, written to and finalized only
    while it is the open one, with a non-null buffer and a non-zero size,
    and after a write on it has failed ([true] in the second component)
    nothing but its finalize call is made. *)

Definition same_file (fp : FILE_ptr) (f : FILE) : bool :=
  match fp with
  | Some f' => (f' =? f)%N
  | None => false
  end.

Definition write_args_ok (buf : UBYTE_ptr) (num : N) : bool :=
  not_null buf && negb (num =? 0)%N.

Definition opened_as (kind : FILE -> Target) (p : FILE_ptr) : Target :=
  match p with
  | Some f => kind f
  | None => NoTarget
  end.

Definition protocol_step (st : Target * bool) (c : EncoderCall)
  : option (Target * bool) :=
  match c, st with
  | Call_WAV_OpenFile _ p, (NoTarget, _) => Some (opened_as AudioHandle p, false)
  | Call_AVI_OpenFile _ p, (NoTarget, _) => Some (opened_as VideoHandle p, false)
  | Call_WAV_WriteSamples buf num fp r, (AudioHandle f, false) =>
      if same_file fp f && write_args_ok buf num
      then Some (AudioHandle f, r =? 0) else None
  | Call_AVI_AddAudioSamples buf num fp r, (VideoHandle g, false) =>
      if same_file fp g && write_args_ok buf num
      then Some (VideoHandle g, r =? 0) else None
  | Call_AVI_AddVideoFrame fp r, (VideoHandle g, false) =>
      if same_file fp g then Some (VideoHandle g, r =? 0) else None
  | Call_WAV_CloseFile fp _, (AudioHandle f, _) =>
      if same_file fp f then Some (NoTarget, false) else None
  | Call_AVI_CloseFile fp _, (VideoHandle g, _) =>
      if same_file fp g then Some (NoTarget, false) else None
  | _, _ => None
  end.

(** Run a trace through the discipline; [None] as soon as a call breaks
    it. *)
Fixpoint protocol (st : Target * bool) (cs : list EncoderCall)
  : option (Target * bool) :=
  match cs with
  | [] => Some st
  | c :: cs' =>
      match protocol_step st c with
      | Some st' => protocol st' cs'
      | None => None
      end
  end.

(** An open call that returned a stream. *)
Definition opened (c : EncoderCall) : bool :=
  match c with
  | Call_WAV_OpenFile _ p | Call_AVI_OpenFile _ p => not_null p
  | _ => false
  end.

Definition is_open_call (c : EncoderCall) : bool :=
  match c with
  | Call_WAV_OpenFile _ _ | Call_AVI_OpenFile _ _ => true
  | _ => false
  end.

(** The value a write primitive returned; [None] for the other calls. *)
Definition write_result (c : EncoderCall) : option Z :=
  match c with
  | Call_WAV_WriteSamples _ _ _ r => Some r
  | Call_AVI_AddAudioSamples _ _ _ r => Some r
  | Call_AVI_AddVideoFrame _ r => Some r
  | _ => None
  end.

Definition is_write_call (c : EncoderCall) : bool :=
  match write_result c with
  | Some _ => true
  | None => false
  end.

(** No null pointer and no empty buffer among the arguments of a call. *)
Definition call_args_ok (c : EncoderCall) : bool :=
  match c with
  | Call_WAV_OpenFile _ _ | Call_AVI_OpenFile _ _ => true
  | Call_WAV_WriteSamples buf num fp _ => write_args_ok buf num && not_null fp
  | Call_AVI_AddAudioSamples buf num fp _ =>
      write_args_ok buf num && not_null fp
  | Call_AVI_AddVideoFrame fp _ => not_null fp
  | Call_WAV_CloseFile fp _ | Call_AVI_CloseFile fp _ => not_null fp
  end.

Definition count (f : EncoderCall -> bool) (cs : list EncoderCall) : nat :=
  List.length (filter f cs).

(** [rest] is exactly one finalize call for each handle that is set in [s],
    the WAV one first. *)
Definition finalized {World : Type} (s : State World)
    (rest : list EncoderCall) : Prop :=
  match sndoutput s, avioutput s with
  | None, None => rest = []
  | Some f, None => exists r, rest = [Call_WAV_CloseFile (Some f) r]
  | None, Some g => exists r, rest = [Call_AVI_CloseFile (Some g) r]
  | Some f, Some g =>
      exists r1 r2,
        rest = [Call_WAV_CloseFile (Some f) r1;
                Call_AVI_CloseFile (Some g) r2]
  end.

(** Running [m] from [s] made the encoder call [write] and then closed the
    session by force: the finalize call of every open handle followed, both
    handles are null, IsFileOpen answers FALSE, and [m] returned 0. *)
Definition force_closed {World : Type} {E : FileExport World}
    (m : M World Z) (s : State World) (write : EncoderCall) : Prop :=
  fst (m s) = 0
  /\ sndoutput (snd (m s)) = NULL
  /\ avioutput (snd (m s)) = NULL
  /\ fst (Multimedia_IsFileOpen (snd (m s))) = FALSE
  /\ exists rest, made_by m s = write :: rest /\ finalized s rest.

(** The encoder families, and the handle the session keeps for each. *)
Inductive Family : Type := WAV | AVI.

Definition handle {World : Type} (fam : Family) (s : State World)
  : FILE_ptr :=
  match fam with
  | WAV => sndoutput s
  | AVI => avioutput s
  end.

(** An open call of the family that returned stream [f]. *)
Definition opens_stream (fam : Family) (f : FILE) (c : EncoderCall) : bool :=
  match fam, c with
  | WAV, Call_WAV_OpenFile _ p => same_file p f
  | AVI, Call_AVI_OpenFile _ p => same_file p f
  | _, _ => false
  end.

(** A finalize call of the family on stream [f]. *)
Definition closes_stream (fam : Family) (f : FILE) (c : EncoderCall)
  : bool :=
  match fam, c with
  | WAV, Call_WAV_CloseFile fp _ => same_file fp f
  | AVI, Call_AVI_CloseFile fp _ => same_file fp f
  | _, _ => false
  end.

(** Whether a state of the discipline holds stream [f] of the family open. *)
Definition holds (fam : Family) (f : FILE) (st : Target * bool) : nat :=
  match fam, fst st with
  | WAV, AudioHandle f' => if (f' =? f)%N then 1%nat else 0%nat
  | AVI, VideoHandle g => if (g =? f)%N then 1%nat else 0%nat
  | _, _ => 0%nat
  end.

(** Streams held open in a state of the discipline: none or one. *)
Definition open_count (st : Target * bool) : nat :=
  match fst st with
  | NoTarget => 0%nat
  | _ => 1%nat
  end.

(** ** Proof support *)

Lemma skipn_app_length {A : Type} (l d : list A) :
  skipn (List.length l) (l ++ d) = d.
Proof.
  induction l as [| a l IH]; simpl; auto.
Qed.

(** Unfold the monad and the entry points down to state transformers. *)
Ltac mm_unfold :=
  unfold exec, Multimedia_OpenSoundFile, Multimedia_OpenVideoFile,
    Multimedia_WriteAudio, Multimedia_WriteVideo, Multimedia_CloseFile,
    Multimedia_IsFileOpen, bind, ret, extern, get_sndoutput, get_avioutput,
    set_sndoutput, set_avioutput in *.

(** Name the outcome of every encoder call met on the way. *)
Ltac mm_name e :=
  let r := fresh "r" in
  let w := fresh "w" in
  let Hc := fresh "Hcall" in
  destruct e as [r w] eqn:Hc.

Ltac mm_simpl :=
  cbn [sndoutput avioutput world trace not_null fst snd andb orb negb] in *.

Ltac mm_calls :=
  repeat (mm_simpl;
          match goal with
          | |- context [WAV_CloseFile ?a ?w] => mm_name (WAV_CloseFile a w)
          | |- context [AVI_CloseFile ?a ?w] => mm_name (AVI_CloseFile a w)
          | |- context [WAV_WriteSamples ?a ?b ?c ?w] =>
              mm_name (WAV_WriteSamples a b c w)
          | |- context [AVI_AddAudioSamples ?a ?b ?c ?w] =>
              mm_name (AVI_AddAudioSamples a b c w)
          | |- context [AVI_AddVideoFrame ?a ?w] =>
              mm_name (AVI_AddVideoFrame a w)
          | |- context [WAV_OpenFile ?a ?w] => mm_name (WAV_OpenFile a w)
          | |- context [AVI_OpenFile ?a ?w] => mm_name (AVI_OpenFile a w)
          | |- context [if (?r =? 0)%Z then _ else _] =>
              let Hz := fresh "Hz" in
              destruct (Z.eqb_spec r 0) as [Hz | Hz]
          end);
  mm_simpl.

(** Split on the two handles of a state. *)
Ltac mm_handles s :=
  let sn := fresh "sn" in
  let av := fresh "av" in
  let w := fresh "w" in
  let t := fresh "t" in
  destruct s as [[sn |] [av |] w t].

(** State a goal about [made_by] on the calls actually appended. *)
Ltac mm_trace :=
  unfold made_by; mm_unfold; mm_calls;
  repeat rewrite <- app_assoc;
  rewrite ?skipn_app_length, ?skipn_all;
  cbn [app].


Section Facts.
Context {World : Type} {E : FileExport World}.

Lemma CloseFile_clears (s : State World) :
  statics (snd (Multimedia_CloseFile s)) = (NULL, NULL).
Proof.
  mm_handles s; mm_unfold; mm_calls; reflexivity.
Qed.

(** The trace only grows: [made_by] is exactly what a request appended. *)
Lemma trace_extends (q : Request) (s : State World) :
  trace (snd (exec q s)) = trace s ++ made_by (exec q) s.
Proof.
  destruct q as [| | name | [buf |] n | name |];
    mm_handles s; unfold exec;
    try (unfold made_by, Multimedia_WriteAudio;
         destruct (N.eqb_spec n 0); cbn [not_null andb negb]);
    mm_trace; rewrite ?app_nil_r; reflexivity.
Qed.

Lemma exec_at_most_one (q : Request) (s : State World) :
  at_most_one s -> at_most_one (snd (exec q s)).
Proof.
  unfold at_most_one.
  intros H; destruct q as [| | name | [buf |] n | name |];
    mm_handles s; cbn in H; try (destruct H; discriminate);
    mm_unfold; try destruct (N.eqb_spec n 0);
    mm_calls; auto.
Qed.

End Facts.

(** ** C1: at most one handle is open *)

(** C1.  Starting with no file open, whatever the encoders answer and
    whatever sequence of IsFileOpen, CloseFile, OpenSoundFile, WriteAudio,
    OpenVideoFile and WriteVideo calls is made, [sndoutput] and [avioutput]
    are never both non-null afterwards. *)
Theorem at_most_one_handle_open
    {World : Type} {E : FileExport World} (w : World) (qs : list Request) :
  at_most_one (run qs (initial w)).
Proof.
  assert (G : forall s : State World, at_most_one s -> at_most_one (run qs s)).
  { induction qs as [| q qs IH]; intros s Hs; simpl.
    - exact Hs.
    - apply IH, exec_at_most_one, Hs. }
  apply G. left. reflexivity.
Qed.

(** ** C5, C7: closing *)

(** C5.  After any call of CloseFile both handles are null and IsFileOpen
    answers FALSE, whatever the finalize calls report; the value returned is
    the one reported by the finalize call that was made (the later one, were
    both handles set; TRUE when none was made). *)
Theorem CloseFile_always_clears
    {World : Type} {E : FileExport World} (s : State World) :
  let r := fst (Multimedia_CloseFile s) in
  let s' := snd (Multimedia_CloseFile s) in
  sndoutput s' = NULL
  /\ avioutput s' = NULL
  /\ fst (Multimedia_IsFileOpen s') = FALSE
  /\ match sndoutput s, avioutput s with
     | None, None =>
         made_by Multimedia_CloseFile s = [] /\ r = TRUE
     | Some _, None =>
         made_by Multimedia_CloseFile s = [Call_WAV_CloseFile (sndoutput s) r]
     | None, Some _ =>
         made_by Multimedia_CloseFile s = [Call_AVI_CloseFile (avioutput s) r]
     | Some _, Some _ =>
         exists r1,
           made_by Multimedia_CloseFile s =
             [Call_WAV_CloseFile (sndoutput s) r1;
              Call_AVI_CloseFile (avioutput s) r]
     end.
Proof.
  mm_handles s; cbn zeta; mm_trace; repeat split; eauto.
Qed.

Section Closing.
Context {World : Type} {E : FileExport World}.

Lemma CloseFile_idle (s : State World) :
  some_open s = false ->
  Multimedia_CloseFile s = (TRUE, s)
  /\ made_by Multimedia_CloseFile s = [].
Proof.
  unfold some_open.
  mm_handles s; cbn; intros H; try discriminate.
  mm_trace. split; reflexivity.
Qed.

Lemma some_open_after_close (s : State World) :
  some_open (snd (Multimedia_CloseFile s)) = false.
Proof.
  pose proof (CloseFile_clears s) as H. unfold statics in H.
  injection H as H1 H2. unfold some_open. rewrite H1, H2. reflexivity.
Qed.

(** Closing twice: the second call finds nothing to do. *)
Corollary CloseFile_twice (s : State World) :
  Multimedia_CloseFile (snd (Multimedia_CloseFile s))
  = (TRUE, snd (Multimedia_CloseFile s)).
Proof.
  apply CloseFile_idle, some_open_after_close.
Qed.

End Closing.

(** C7.  With no handle open, CloseFile calls no encoder, leaves the state
    (handles, world and trace) as it was and returns TRUE. *)
Theorem CloseFile_nothing_open
    {World : Type} {E : FileExport World} (s : State World) :
  sndoutput s = NULL -> avioutput s = NULL ->
  fst (Multimedia_CloseFile s) = TRUE
  /\ snd (Multimedia_CloseFile s) = s
  /\ made_by Multimedia_CloseFile s = [].
Proof.
  intros Hs Ha.
  destruct (CloseFile_idle s) as [H1 H2].
  - unfold some_open. rewrite Hs, Ha. reflexivity.
  - rewrite H1. auto.
Qed.

Lemma CloseFile_nothing_open_witness :
  fst (Multimedia_CloseFile (initial [5; 0]%Z)) = TRUE
  /\ snd (Multimedia_CloseFile (initial [5; 0]%Z)) = initial [5; 0]%Z
  /\ made_by Multimedia_CloseFile (initial [5; 0]%Z) = [].
Proof.
  apply (CloseFile_nothing_open (initial [5; 0]%Z)); reflexivity.
Defined.

(** ** C8: degenerate audio writes *)

(** C8.  In every state, WriteAudio with a null buffer or with size zero
    returns 0, calls no encoder and leaves the state as it was. *)
Theorem WriteAudio_degenerate_input
    {World : Type} {E : FileExport World}
    (s : State World) (ucBuffer : UBYTE_ptr) (uiSize : N) :
  ucBuffer = NULL \/ uiSize = 0%N ->
  fst (Multimedia_WriteAudio ucBuffer uiSize s) = 0
  /\ snd (Multimedia_WriteAudio ucBuffer uiSize s) = s
  /\ made_by (Multimedia_WriteAudio ucBuffer uiSize) s = [].
Proof.
  intros [H | H]; subst; unfold made_by, Multimedia_WriteAudio, ret.
  - cbn. rewrite skipn_all. auto.
  - rewrite andb_false_r. cbn. rewrite skipn_all. auto.
Qed.

Lemma WriteAudio_degenerate_input_witness :
  let s := mkState (Some 3%N) NULL [0; 0]%Z [] in
  (fst (Multimedia_WriteAudio Script.pcm 0 s) = 0
   /\ snd (Multimedia_WriteAudio Script.pcm 0 s) = s
   /\ made_by (Multimedia_WriteAudio Script.pcm 0) s = [])
  /\ (fst (Multimedia_WriteAudio NULL 4 s) = 0
      /\ snd (Multimedia_WriteAudio NULL 4 s) = s
      /\ made_by (Multimedia_WriteAudio NULL 4) s = []).
Proof.
  split.
  - apply (WriteAudio_degenerate_input _ Script.pcm 0%N). right. reflexivity.
  - apply (WriteAudio_degenerate_input _ NULL 4%N). left. reflexivity.
Defined.

(** ** C2: a failed write closes the session *)

(** C2.  In every state in which a file is open: if WriteAudio is called
    with a non-null buffer and a non-zero size and the encoder's write
    primitive it is routed to (WAV_WriteSamples on the sound handle,
    AVI_AddAudioSamples on the video handle) answers 0, or if WriteVideo is
    called and AVI_AddVideoFrame answers 0, then that write call was made
    and the session is closed by force: the finalize call of the open
    handle follows, both handles are null, IsFileOpen answers FALSE right
    after, and the write returns 0. *)
Theorem write_failure_forces_close
    {World : Type} {E : FileExport World}
    (s : State World) (ucBuffer : UBYTE_ptr) (uiSize : N) :
  (ucBuffer <> NULL -> uiSize <> 0%N ->
   sndoutput s <> NULL ->
   fst (WAV_WriteSamples ucBuffer uiSize (sndoutput s) (world s)) = 0 ->
   force_closed (Multimedia_WriteAudio ucBuffer uiSize) s
     (Call_WAV_WriteSamples ucBuffer uiSize (sndoutput s) 0))
  /\ (ucBuffer <> NULL -> uiSize <> 0%N ->
      sndoutput s = NULL -> avioutput s <> NULL ->
      fst (AVI_AddAudioSamples ucBuffer uiSize (avioutput s) (world s)) = 0 ->
      force_closed (Multimedia_WriteAudio ucBuffer uiSize) s
        (Call_AVI_AddAudioSamples ucBuffer uiSize (avioutput s) 0))
  /\ (avioutput s <> NULL ->
      fst (AVI_AddVideoFrame (avioutput s) (world s)) = 0 ->
      force_closed Multimedia_WriteVideo s
        (Call_AVI_AddVideoFrame (avioutput s) 0)).
Proof.
  unfold force_closed, finalized, NULL.
  split; [| split].
  - intros Hb Hn Hs. destruct ucBuffer as [buf |]; [clear Hb | congruence].
    mm_handles s; cbn [sndoutput] in Hs; try congruence; clear Hs;
      unfold made_by, Multimedia_WriteAudio;
      destruct (N.eqb_spec uiSize 0) as [Hn0 | _]; try contradiction;
      cbn [not_null andb negb];
      mm_trace; intros Hr; try contradiction; subst;
      repeat split; eauto.
  - intros Hb Hn Hs Ha. destruct ucBuffer as [buf |]; [clear Hb | congruence].
    mm_handles s; cbn [sndoutput avioutput] in Hs, Ha; try congruence;
      clear Hs Ha;
      unfold made_by, Multimedia_WriteAudio;
      destruct (N.eqb_spec uiSize 0) as [Hn0 | _]; try contradiction;
      cbn [not_null andb negb];
      mm_trace; intros Hr; try contradiction; subst;
      repeat split; eauto.
  - intros Ha.
    mm_handles s; cbn [avioutput] in Ha; try congruence; clear Ha;
      mm_trace; intros Hr; try contradiction; subst;
      repeat split; eauto.
Qed.

(** A failed write on a sound file, a failed audio write into a video file
    (whose finalize fails too), and a failed video frame. *)
Lemma write_failure_forces_close_witness :
  force_closed (Multimedia_WriteAudio Script.pcm 4)
    (mkState (Some 7%N) NULL [0; 1]%Z [])
    (Call_WAV_WriteSamples Script.pcm 4 (Some 7%N) 0)
  /\ force_closed (Multimedia_WriteAudio Script.pcm 4)
       (mkState NULL (Some 9%N) [0; 0]%Z [])
       (Call_AVI_AddAudioSamples Script.pcm 4 (Some 9%N) 0)
  /\ force_closed Multimedia_WriteVideo
       (mkState NULL (Some 9%N) [0; 1]%Z [])
       (Call_AVI_AddVideoFrame (Some 9%N) 0).
Proof.
  split; [| split].
  - apply (proj1 (write_failure_forces_close
                    (mkState (Some 7%N) NULL [0; 1]%Z []) Script.pcm 4%N));
      try discriminate; reflexivity.
  - apply (proj1 (proj2 (write_failure_forces_close
                           (mkState NULL (Some 9%N) [0; 0]%Z [])
                           Script.pcm 4%N)));
      try discriminate; reflexivity.
  - apply (proj2 (proj2 (write_failure_forces_close
                           (mkState NULL (Some 9%N) [0; 1]%Z [])
                           Script.pcm 4%N)));
      try discriminate; reflexivity.
Defined.

(** ** C6: routing of writes *)

(** C6.  In a state with at most one handle set, WriteAudio with a non-null
    buffer and a non-zero size calls WAV_WriteSamples on the audio handle
    when that one is open, AVI_AddAudioSamples on the video handle when that
    one is open, and with nothing open returns 0 without any call or change;
    WriteVideo calls AVI_AddVideoFrame when the video handle is open and
    otherwise returns 0 without any call or change.  A forwarded write
    returns what the encoder returned, and the only further calls (after a
    failure) are finalize calls. *)
Theorem write_routing
    {World : Type} {E : FileExport World}
    (s : State World) (tgt : Target) (ucBuffer : UBYTE_ptr) (uiSize : N) :
  active_target s = Some tgt ->
  not_null ucBuffer = true ->
  uiSize <> 0%N ->
  let audio := Multimedia_WriteAudio ucBuffer uiSize in
  match tgt with
  | AudioHandle f =>
      exists rest,
        made_by audio s
        = Call_WAV_WriteSamples ucBuffer uiSize (Some f) (fst (audio s)) :: rest
        /\ only_closes rest
  | VideoHandle g =>
      exists rest,
        made_by audio s
        = Call_AVI_AddAudioSamples ucBuffer uiSize (Some g) (fst (audio s))
            :: rest
        /\ only_closes rest
  | NoTarget =>
      fst (audio s) = 0 /\ snd (audio s) = s /\ made_by audio s = []
  end
  /\
  match tgt with
  | VideoHandle g =>
      exists rest,
        made_by Multimedia_WriteVideo s
        = Call_AVI_AddVideoFrame (Some g) (fst (Multimedia_WriteVideo s))
            :: rest
        /\ only_closes rest
  | _ =>
      fst (Multimedia_WriteVideo s) = 0
      /\ snd (Multimedia_WriteVideo s) = s
      /\ made_by Multimedia_WriteVideo s = []
  end.
Proof.
  intros Ht Hb Hn. unfold active_target in Ht.
  destruct ucBuffer as [buf |]; [clear Hb | discriminate Hb].
  mm_handles s; cbn in Ht; inversion Ht; subst tgt; clear Ht; cbn zeta;
    unfold made_by, Multimedia_WriteAudio;
    destruct (N.eqb_spec uiSize 0) as [Hn0 | _]; try contradiction;
    cbn [not_null andb negb];
    mm_trace; unfold only_closes;
    repeat split; eauto.
Qed.

Lemma write_routing_witness :
  let s := mkState NULL (Some 9%N) [4; 100]%Z [] in
  let audio := Multimedia_WriteAudio Script.pcm 4 in
  (exists rest,
      made_by audio s
      = Call_AVI_AddAudioSamples Script.pcm 4 (Some 9%N) (fst (audio s)) :: rest
      /\ only_closes rest)
  /\ (exists rest,
         made_by Multimedia_WriteVideo s
         = Call_AVI_AddVideoFrame (Some 9%N) (fst (Multimedia_WriteVideo s))
             :: rest
         /\ only_closes rest).
Proof.
  apply (write_routing (mkState NULL (Some 9%N) [4; 100]%Z [])
           (VideoHandle 9%N) Script.pcm 4%N).
  - reflexivity.
  - reflexivity.
  - discriminate.
Defined.

(** ** C4: opening supersedes *)

(** C4.  OpenSoundFile and OpenVideoFile first run CloseFile, in every state:
    the finalize call for each handle that was open precedes the encoder's
    open call, which runs in the world CloseFile left.  If the encoder
    returns a handle, it becomes the (only) open handle and TRUE is
    returned; if it returns NULL, no handle is open and FALSE is returned. *)
Theorem open_supersedes
    {World : Type} {E : FileExport World}
    (s : State World) (szFileName : string) :
  let closed := snd (Multimedia_CloseFile s) in
  let closes := made_by Multimedia_CloseFile s in
  match sndoutput s with
  | Some f => exists r, In (Call_WAV_CloseFile (Some f) r) closes
  | None => True
  end
  /\ match avioutput s with
     | Some g => exists r, In (Call_AVI_CloseFile (Some g) r) closes
     | None => True
     end
  /\ (let r := fst (Multimedia_OpenSoundFile szFileName s) in
      let s' := snd (Multimedia_OpenSoundFile szFileName s) in
      exists p,
        WAV_OpenFile szFileName (world closed) = (p, world s')
        /\ made_by (Multimedia_OpenSoundFile szFileName) s
           = closes ++ [Call_WAV_OpenFile szFileName p]
        /\ match p with
           | Some f => statics s' = (Some f, NULL) /\ r = TRUE
           | None => statics s' = (NULL, NULL) /\ r = FALSE
           end)
  /\ (let r := fst (Multimedia_OpenVideoFile szFileName s) in
      let s' := snd (Multimedia_OpenVideoFile szFileName s) in
      exists p,
        AVI_OpenFile szFileName (world closed) = (p, world s')
        /\ made_by (Multimedia_OpenVideoFile szFileName) s
           = closes ++ [Call_AVI_OpenFile szFileName p]
        /\ match p with
           | Some g => statics s' = (NULL, Some g) /\ r = TRUE
           | None => statics s' = (NULL, NULL) /\ r = FALSE
           end).
Proof.
  cbn zeta. unfold statics.
  mm_handles s; mm_trace; repeat split; eauto using in_eq, in_cons;
    eexists; (split; [reflexivity |]);
    (split; [reflexivity |]);
    match goal with
    | |- match ?p with _ => _ end => destruct p
    end; split; reflexivity.
Qed.

(** ** C3: what IsFileOpen answers *)

Section Histories.
Context {World : Type} {E : FileExport World}.

Lemma IsFileOpen_eq (s : State World) :
  Multimedia_IsFileOpen s = (int_of_bool (some_open s), s).
Proof.
  reflexivity.
Qed.

Lemma history_run (qs : list Request) (s : State World) :
  snd (history qs s) = run qs s.
Proof.
  revert s; induction qs as [| q qs IH]; intros s; simpl.
  - reflexivity.
  - rewrite <- IH. destruct (history qs (snd (exec q s))). reflexivity.
Qed.

(** One request moves "some handle is open" the way one more step moves
    the scan of the history. *)
Lemma step_scan (q : Request) (s : State World) (older : list Step) :
  some_open s = spec_file_open_scan older ->
  some_open (snd (step q s))
  = spec_file_open_scan (fst (step q s) :: older).
Proof.
  intros Hs. unfold step.
  cbn [fst snd spec_file_open_scan request returned calls write_failure].
  rewrite <- Hs. clear Hs older. unfold some_open.
  destruct q as [| | name | [buf |] n | name |];
    cbn [is_open_request is_close_request is_write_request andb];
    mm_handles s; unfold exec;
    try (unfold made_by, Multimedia_WriteAudio;
         destruct (N.eqb_spec n 0); cbn [not_null andb negb]);
    mm_trace; unfold write_failure;
    cbn [request calls is_write_request andb existsb failed_write orb
         int_of_bool Z.eqb];
    try reflexivity;
    try match goal with
        | |- context [not_null ?p] => destruct p; reflexivity
        end;
    try (apply Z.eqb_neq in Hz; rewrite Hz; reflexivity);
    try (subst; reflexivity).
Qed.

Lemma history_scan (qs : list Request) :
  forall (s : State World) (h0 : list Step),
    some_open s = spec_file_open_scan (rev h0) ->
    some_open (snd (history qs s))
    = spec_file_open_scan (rev (h0 ++ fst (history qs s))).
Proof.
  induction qs as [| q qs IH]; intros s h0 H0; simpl.
  - rewrite app_nil_r. exact H0.
  - specialize (IH (snd (step q s)) (h0 ++ [fst (step q s)])).
    rewrite rev_unit in IH.
    specialize (IH (step_scan q s (rev h0) H0)).
    unfold step in *. cbn [fst snd] in *.
    destruct (history qs (snd (exec q s))) as [h s''].
    cbn [fst snd] in *. rewrite IH, <- app_assoc. reflexivity.
Qed.

End Histories.

(** The scan decides the specification's sentence. *)
Lemma spec_file_open_scan_iff (h : list Step) :
  spec_file_open h <-> spec_file_open_scan (rev h) = true.
Proof.
  induction h as [| st h IH] using rev_ind.
  - split.
    + intros (before & o & since & Hh & _). destruct before; discriminate Hh.
    + discriminate.
  - rewrite rev_unit. cbn [spec_file_open_scan]. split.
    + intros (before & o & since & Hh & Ho & Hsince).
      destruct since as [| st' since' _] using rev_ind.
      * apply app_inj_tail in Hh as [_ <-].
        unfold open_succeeded in Ho. apply andb_prop in Ho as [Ho1 Ho2].
        rewrite Ho1. exact Ho2.
      * rewrite app_comm_cons, app_assoc in Hh.
        apply app_inj_tail in Hh as [Hh <-].
        apply Forall_app in Hsince as [Hsince Hst].
        inversion Hst as [| ? ? Hk _]; subst.
        unfold keeps_session in Hk.
        apply andb_prop in Hk as [Hk Hk3]. apply andb_prop in Hk as [Hk1 Hk2].
        apply negb_true_iff in Hk1, Hk2, Hk3. rewrite Hk1, Hk2, Hk3.
        apply IH. exists before, o, since'. auto.
    + intros Hscan.
      destruct (is_open_request (request st)) eqn:Hopen.
      * exists h, st, []. unfold open_succeeded. rewrite Hopen, Hscan. auto.
      * destruct (is_close_request (request st)) eqn:Hclose;
          [discriminate Hscan |].
        destruct (write_failure st) eqn:Hfail; [discriminate Hscan |].
        apply IH in Hscan as (before & o & since & -> & Ho & Hsince).
        exists before, o, (since ++ [st]).
        rewrite <- app_assoc. repeat split; auto.
        apply Forall_app. split; [exact Hsince |].
        constructor; [| constructor].
        unfold keeps_session. rewrite Hopen, Hclose, Hfail. reflexivity.
Qed.

(** C3.  IsFileOpen changes nothing and calls no encoder; it answers TRUE
    iff one of the handles is non-null, and FALSE otherwise.  After every
    sequence of requests from the initial state, whatever the encoders
    answer, that is the case iff the most recent open request returned TRUE
    and since then there has been no CloseFile request and no write request
    during which the encoder's write primitive returned 0. *)
Theorem IsFileOpen_pure_and_tracks_history
    {World : Type} {E : FileExport World}
    (s : State World) (w : World) (qs : list Request) :
  snd (Multimedia_IsFileOpen s) = s
  /\ made_by Multimedia_IsFileOpen s = []
  /\ fst (Multimedia_IsFileOpen s) = (if some_open s then TRUE else FALSE)
  /\ (fst (Multimedia_IsFileOpen (run qs (initial w))) = TRUE
      <-> spec_file_open (fst (history qs (initial w)))).
Proof.
  split; [reflexivity |].
  split; [unfold made_by; cbn; apply skipn_all |].
  split; [reflexivity |].
  rewrite IsFileOpen_eq, spec_file_open_scan_iff. cbn [fst].
  rewrite <- history_run.
  rewrite (history_scan qs (initial w) []) by reflexivity.
  cbn [app].
  destruct (spec_file_open_scan (rev (fst (history qs (initial w)))));
    cbn; split; intros H; try reflexivity; discriminate H.
Qed.

(** ** C10: the flag of an internal CloseFile is dropped *)

Section InternalClose.
Context {World : Type} {E : FileExport World}.



End InternalClose.




(** ** C9: no interleave flag in the session *)

(** C9, as stated, fails.  Open a video file (the encoder returns stream 9),
    then write audio, which goes to the video encoder and succeeds: the
    session state is the same after both calls, so no boolean read off it is
    false after the first and true after the second. *)
Lemma last_audio_write_done_counterexample :
  let s0 := initial [9; 4]%Z in
  let s1 := snd (Multimedia_OpenVideoFile "v.avi" s0) in
  let s2 := snd (Multimedia_WriteAudio Script.pcm 4 s1) in
  fst (Multimedia_OpenVideoFile "v.avi" s0) = TRUE
  /\ made_by (Multimedia_WriteAudio Script.pcm 4) s1
     = [Call_AVI_AddAudioSamples Script.pcm 4 (avioutput s1) 4]
  /\ statics s2 = statics s1
  /\ forall last_audio_write_done : FILE_ptr * FILE_ptr -> bool,
       ~ tracks_interleave (E := Script.encoders) last_audio_write_done.
Proof.
  cbn zeta. split; [reflexivity |]. split; [reflexivity |].
  split; [reflexivity |].
  intros flag [Hopen Hwrite].
  pose (s0 := initial [9; 4]%Z).
  pose (s1 := snd (Multimedia_OpenVideoFile "v.avi" s0)).
  specialize (Hopen s0 "v.avi"%string eq_refl).
  specialize (Hwrite s1 Script.pcm 4%N 4 [] eq_refl).
  change (statics (snd (Multimedia_WriteAudio Script.pcm 4 s1)))
    with (statics (snd (Multimedia_OpenVideoFile "v.avi" s0))) in Hwrite.
  rewrite Hopen in Hwrite. discriminate Hwrite.
Qed.

(** C9, amended.  The session state is the two handles and nothing more.
    A successful OpenVideoFile leaves [sndoutput] null and [avioutput] set
    to the handle the encoder returned.  A WriteAudio that goes to the video
    encoder leaves both handles as they were when the encoder accepts the
    samples, and clears both when it returns 0. *)
Theorem video_path_touches_handles_only
    {World : Type} {E : FileExport World}
    (s : State World) (szFileName : string)
    (ucBuffer : UBYTE_ptr) (uiSize : N) (r : Z) (rest : list EncoderCall) :
  (fst (Multimedia_OpenVideoFile szFileName s) = TRUE ->
   exists g,
     statics (snd (Multimedia_OpenVideoFile szFileName s)) = (NULL, Some g)
     /\ In (Call_AVI_OpenFile szFileName (Some g))
           (made_by (Multimedia_OpenVideoFile szFileName) s))
  /\ (made_by (Multimedia_WriteAudio ucBuffer uiSize) s
      = Call_AVI_AddAudioSamples ucBuffer uiSize (avioutput s) r :: rest ->
      statics (snd (Multimedia_WriteAudio ucBuffer uiSize s))
      = (if r =? 0 then (NULL, NULL) else statics s)).
Proof.
  unfold statics. split.
  - mm_handles s; mm_trace;
      match goal with
      | |- context [not_null ?p] => destruct p as [g |]
      end; cbn; intros H; try discriminate H;
      exists g; split; auto using in_eq, in_cons.
  - destruct ucBuffer as [buf |];
      mm_handles s;
      unfold made_by, Multimedia_WriteAudio;
      destruct (N.eqb_spec uiSize 0); cbn [not_null andb negb];
      mm_trace; intros H; try discriminate H;
      injection H as <- _;
      first [reflexivity | contradiction].
Qed.

Lemma video_path_touches_handles_only_witness :
  let s0 := initial [9; 4]%Z in
  let s1 := snd (Multimedia_OpenVideoFile "v.avi" s0) in
  (exists g,
      statics s1 = (NULL, Some g)
      /\ In (Call_AVI_OpenFile "v.avi" (Some g))
            (made_by (Multimedia_OpenVideoFile "v.avi") s0))
  /\ statics (snd (Multimedia_WriteAudio Script.pcm 4 s1)) = statics s1.
Proof.
  split.
  - apply (proj1 (video_path_touches_handles_only
                    (initial [9; 4]%Z) "v.avi" Script.pcm 4%N 4 [])).
    reflexivity.
  - apply (proj2 (video_path_touches_handles_only
                    (snd (Multimedia_OpenVideoFile "v.avi" (initial [9; 4]%Z)))
                    "v.avi" Script.pcm 4%N 4 [])).
    reflexivity.
Defined.

(** ** Scenarios of the specification, run on the scripted encoder *)

(** Open("v.avi") succeeds, WriteAudio goes to the video container and
    succeeds, WriteVideo succeeds: IsFileOpen is TRUE throughout. *)
Example scenario_video_session :
  map returned
    (fst (history
            [Req_OpenVideoFile "v.avi"; Req_IsFileOpen;
             Req_WriteAudio Script.pcm 4; Req_IsFileOpen;
             Req_WriteVideo; Req_IsFileOpen]
            (initial [9; 4; 100]%Z)))
  = [TRUE; TRUE; 4; TRUE; 100; TRUE].
Proof.
  reflexivity.
Qed.

(** Open("v.avi") succeeds, WriteVideo fails: IsFileOpen is FALSE and a
    following WriteAudio reaches no encoder. *)
Example scenario_video_write_fails :
  map (fun st => (returned st, calls st))
    (fst (history
            [Req_OpenVideoFile "v.avi"; Req_WriteVideo; Req_IsFileOpen;
             Req_WriteAudio Script.pcm 4]
            (initial [9; 0; 1; 4]%Z)))
  = [(TRUE, [Call_AVI_OpenFile "v.avi" (Some 9%N)]);
     (0, [Call_AVI_AddVideoFrame (Some 9%N) 0;
          Call_AVI_CloseFile (Some 9%N) 1]);
     (FALSE, []);
     (0, [])].
Proof.
  reflexivity.
Qed.

(** Open("a.wav"), a write, Open("a.wav") again: the first handle is
    finalized before the second open is attempted. *)
Example scenario_reopen :
  trace (run [Req_OpenSoundFile "a.wav"; Req_WriteAudio Script.pcm 4;
              Req_OpenSoundFile "a.wav"]
           (initial [7; 4; 1; 8]%Z))
  = [Call_WAV_OpenFile "a.wav" (Some 7%N);
     Call_WAV_WriteSamples Script.pcm 4 (Some 7%N) 4;
     Call_WAV_CloseFile (Some 7%N) 1;
     Call_WAV_OpenFile "a.wav" (Some 8%N)].
Proof.
  reflexivity.
Qed.

(** A write request that returns 0 without reaching an encoder is not a
    write failure: the audio session stays open. *)
Example scenario_noop_writes_keep_session :
  map returned
    (fst (history
            [Req_OpenSoundFile "a.wav"; Req_WriteVideo;
             Req_WriteAudio NULL 4; Req_IsFileOpen]
            (initial [7]%Z)))
  = [TRUE; 0; 0; TRUE].
Proof.
  reflexivity.
Qed.

(** ** Further properties: the calling discipline towards the encoders *)

Lemma protocol_app (st : Target * bool) (a b : list EncoderCall) :
  protocol st (a ++ b)
  = match protocol st a with
    | Some st' => protocol st' b
    | None => None
    end.
Proof.
  revert st; induction a as [| c a IH]; intros st; simpl.
  - reflexivity.
  - destruct (protocol_step st c); auto.
Qed.

(** Finish a goal in which the outcome of a write is known to be zero or
    known to be non-zero. *)
Ltac mm_zero :=
  repeat match goal with
         | Hz : ?r = 0 |- _ => rewrite Hz in *; clear Hz
         | Hz : ?r <> 0 |- _ => apply Z.eqb_neq in Hz; rewrite ?Hz in *
         end.

Ltac mm_request q s n :=
  destruct q as [| | ? | [?buf |] n | ? |];
  mm_handles s; unfold exec;
  try (unfold made_by, Multimedia_WriteAudio;
       destruct (N.eqb_spec n 0); cbn [not_null andb negb]).

Section Discipline.
Context {World : Type} {E : FileExport World}.

(** One request, started between two calls of the discipline with the
    handles agreeing with it, ends the same way. *)
Lemma exec_protocol (q : Request) (s : State World) (tgt : Target) :
  active_target s = Some tgt ->
  exists tgt',
    active_target (snd (exec q s)) = Some tgt'
    /\ protocol (tgt, false) (made_by (exec q) s) = Some (tgt', false).
Proof.
  unfold active_target. intros Ht.
  mm_request q s n; cbn in Ht; inversion Ht; subst tgt; clear Ht;
    mm_trace;
    cbn [protocol protocol_step same_file write_args_ok not_null andb negb];
    rewrite ?N.eqb_refl;
    try match goal with
        | Hn : ?n <> 0%N |- _ => apply N.eqb_neq in Hn; rewrite ?Hn
        end;
    cbn [protocol protocol_step same_file write_args_ok not_null andb negb];
    rewrite ?N.eqb_refl;
    mm_zero; cbn [Z.eqb protocol protocol_step same_file]; rewrite ?N.eqb_refl;
    try match goal with
        | |- context [opened_as _ ?p] => destruct p
        end;
    eexists; split; reflexivity.
Qed.

Lemma run_protocol (qs : list Request) :
  forall (s : State World) (st0 : Target * bool) (tgt : Target),
    active_target s = Some tgt ->
    protocol st0 (trace s) = Some (tgt, false) ->
    exists tgt',
      active_target (run qs s) = Some tgt'
      /\ protocol st0 (trace (run qs s)) = Some (tgt', false).
Proof.
  induction qs as [| q qs IH]; intros s st0 tgt Ht Hp; simpl.
  - eauto.
  - destruct (exec_protocol q s tgt Ht) as (tgt' & Ht' & Hd).
    apply (IH _ st0 tgt' Ht').
    rewrite trace_extends, protocol_app, Hp. exact Hd.
Qed.

End Discipline.

(** Along a trace that keeps the discipline, streams opened and streams
    finalized balance. *)
Lemma protocol_balance (cs : list EncoderCall) :
  forall st st',
    protocol st cs = Some st' ->
    (count opened cs + open_count st
     = count is_close_call cs + open_count st')%nat.
Proof.
  unfold count.
  induction cs as [| c cs IH]; intros st st' H; simpl in H.
  - injection H as <-. reflexivity.
  - destruct (protocol_step st c) as [st1 |] eqn:Hstep; [| discriminate H].
    specialize (IH _ _ H).
    destruct st as [[| f | g] d]; destruct c as
      [nm p | buf n fp r | fp r | nm p | fp r | buf n fp r | fp r];
      cbn in Hstep; try discriminate Hstep;
      try (destruct d; try discriminate Hstep);
      repeat match type of Hstep with
             | (if ?b then _ else _) = _ =>
                 destruct b; [| discriminate Hstep]
             end;
      injection Hstep as <-;
      try destruct p; cbn in *; lia.
Qed.

(** X1.  From the initial state, whatever is requested and whatever the
    encoders answer, the calls that reach the encoders keep the discipline:
    a stream is opened only when none is open; every write and finalize
    call is on the stream currently open; writes carry a non-null buffer and
    a non-zero size; after a failed write the next call on that stream is
    its finalize.  The stream the encoders hold open at the end is the one
    the session's handle points to. *)
Theorem encoder_calls_keep_discipline
    {World : Type} {E : FileExport World} (w : World) (qs : list Request) :
  exists tgt,
    active_target (run qs (initial w)) = Some tgt
    /\ protocol (NoTarget, false) (trace (run qs (initial w)))
       = Some (tgt, false).
Proof.
  apply (run_protocol qs (initial w) (NoTarget, false) NoTarget);
    reflexivity.
Qed.

Lemma count_cons (g : EncoderCall -> bool) (c : EncoderCall)
    (cs : list EncoderCall) :
  count g (c :: cs) = ((if g c then 1 else 0) + count g cs)%nat.
Proof.
  unfold count. cbn [filter]. destruct (g c); reflexivity.
Qed.

(** One call that keeps the discipline opens stream [f], finalizes it, or
    leaves it as it is held. *)
Lemma protocol_step_stream (fam : Family) (f : FILE)
    (st st1 : Target * bool) (c : EncoderCall) :
  protocol_step st c = Some st1 ->
  ((if opens_stream fam f c then 1 else 0) + holds fam f st
   = (if closes_stream fam f c then 1 else 0) + holds fam f st1)%nat.
Proof.
  intros Hstep.
  destruct st as [[| a | v] d];
    destruct c as [nm p | buf n fp r | fp r | nm p | fp r | buf n fp r | fp r];
    cbn in Hstep; try discriminate Hstep;
    try (destruct d; try discriminate Hstep);
    repeat match type of Hstep with
           | (if ?b then _ else _) = _ =>
               let Hb := fresh "Hb" in
               destruct b eqn:Hb; [| discriminate Hstep]
           end;
    injection Hstep as <-;
    try (apply andb_prop in Hb as [Hb _]);
    try (destruct fp as [x |]; cbn in Hb; [| discriminate Hb];
         apply N.eqb_eq in Hb; subst x);
    try destruct p as [x |];
    destruct fam; cbn;
    repeat match goal with
           | |- context [(?x =? ?y)%N] => destruct (N.eqb_spec x y)
           end;
    lia.
Qed.

Lemma protocol_stream_balance (fam : Family) (f : FILE)
    (cs : list EncoderCall) :
  forall st st',
    protocol st cs = Some st' ->
    (count (opens_stream fam f) cs + holds fam f st
     = count (closes_stream fam f) cs + holds fam f st')%nat.
Proof.
  induction cs as [| c cs IH]; intros st st' H; simpl in H.
  - injection H as <-. reflexivity.
  - destruct (protocol_step st c) as [st1 |] eqn:Hstep; [| discriminate H].
    specialize (IH _ _ H).
    pose proof (protocol_step_stream fam f st st1 c Hstep) as Hs.
    rewrite !count_cons. lia.
Qed.

(** X2.  From the initial state, for each encoder family and each stream
    [f], the open calls that returned [f] are as many as the finalize calls
    made on [f], plus one exactly when [f] is the stream the session's
    handle of that family holds; summed over all streams, the successful
    open calls are as many as the finalize calls, plus one exactly when a
    file is open.  (That each finalize follows its open is part of the
    discipline of X1.) *)
Theorem opened_streams_are_finalized
    {World : Type} {E : FileExport World} (w : World) (qs : list Request) :
  let s := run qs (initial w) in
  (forall (fam : Family) (f : FILE),
      count (opens_stream fam f) (trace s)
      = (count (closes_stream fam f) (trace s)
         + (if same_file (handle fam s) f then 1 else 0))%nat)
  /\ count opened (trace s)
     = (count is_close_call (trace s) + (if some_open s then 1 else 0))%nat.
Proof.
  cbn zeta.
  destruct (run_protocol qs (initial w) (NoTarget, false) NoTarget
              eq_refl eq_refl) as (tgt & Ht & Hp).
  unfold active_target in Ht. split.
  - intros fam f.
    apply (protocol_stream_balance fam f) in Hp.
    replace (holds fam f (NoTarget, false)) with 0%nat in Hp
      by (destruct fam; reflexivity).
    rewrite Nat.add_0_r in Hp. rewrite Hp. f_equal.
    unfold handle, holds.
    destruct (sndoutput (run qs (initial w))),
      (avioutput (run qs (initial w)));
      inversion Ht; destruct fam; reflexivity.
  - apply protocol_balance in Hp. cbn [open_count fst] in Hp.
    rewrite Nat.add_0_r in Hp. rewrite Hp. f_equal.
    unfold some_open.
    destruct (sndoutput (run qs (initial w))),
      (avioutput (run qs (initial w)));
      inversion Ht; reflexivity.
Qed.

(** The identity per stream tells a leaked stream from a finalized one:
    the trace that opens 7, opens 8 and finalizes 8 twice has the right
    totals but breaks the identity for stream 7. *)
Example stream_identity_tells_leak :
  let tr := [Call_WAV_OpenFile "a.wav" (Some 7%N);
             Call_WAV_OpenFile "b.wav" (Some 8%N);
             Call_WAV_CloseFile (Some 8%N) 1;
             Call_WAV_CloseFile (Some 8%N) 1] in
  count opened tr = count is_close_call tr
  /\ count (opens_stream WAV 7%N) tr <> count (closes_stream WAV 7%N) tr.
Proof.
  split; [reflexivity | discriminate].
Qed.

(** X3.  In every state, no encoder is ever handed a null file pointer,
    and no write primitive a null buffer or a zero size. *)
Theorem encoder_arguments_never_null
    {World : Type} {E : FileExport World} (s : State World) (q : Request) :
  forallb call_args_ok (made_by (exec q) s) = true.
Proof.
  mm_request q s n; mm_trace;
    cbn [forallb call_args_ok write_args_ok not_null andb negb];
    try match goal with
        | Hn : ?n <> 0%N |- _ => apply N.eqb_neq in Hn; rewrite ?Hn
        end;
    reflexivity.
Qed.

(** The discipline does reject: a write after the finalize call, and a
    second finalize call, both break it. *)
Example discipline_rejects_write_after_close :
  protocol (NoTarget, false)
    [Call_WAV_OpenFile "a.wav" (Some 7%N);
     Call_WAV_CloseFile (Some 7%N) 1;
     Call_WAV_WriteSamples Script.pcm 4 (Some 7%N) 4] = None
  /\ protocol (NoTarget, false)
       [Call_AVI_OpenFile "v.avi" (Some 9%N);
        Call_AVI_CloseFile (Some 9%N) 1;
        Call_AVI_CloseFile (Some 9%N) 1] = None
  /\ protocol (NoTarget, false)
       [Call_AVI_OpenFile "v.avi" (Some 9%N);
        Call_AVI_AddVideoFrame (Some 9%N) 0;
        Call_AVI_AddVideoFrame (Some 9%N) 100] = None.
Proof.
  repeat split.
Qed.

(** ** Further properties: single requests *)

(** X4.  A write request that returns non-zero made exactly one encoder
    call, a write primitive that returned that value; the handles are as
    before and a file is still open. *)
Theorem successful_write_keeps_session
    {World : Type} {E : FileExport World} (s : State World) (q : Request) :
  is_write_request q = true ->
  fst (exec q s) <> 0 ->
  map write_result (made_by (exec q) s) = [Some (fst (exec q s))]
  /\ statics (snd (exec q s)) = statics s
  /\ fst (Multimedia_IsFileOpen (snd (exec q s))) = TRUE.
Proof.
  intros Hq. unfold statics.
  mm_request q s n; try discriminate Hq; clear Hq;
    mm_trace; intros H; try contradiction;
    repeat split; reflexivity.
Qed.

Lemma successful_write_keeps_session_witness :
  let s := mkState (Some 7%N) NULL [4; 0]%Z [] in
  let q := Req_WriteAudio Script.pcm 4 in
  map write_result (made_by (exec q) s) = [Some (fst (exec q s))]
  /\ statics (snd (exec q s)) = statics s
  /\ fst (Multimedia_IsFileOpen (snd (exec q s))) = TRUE.
Proof.
  apply (successful_write_keeps_session
           (mkState (Some 7%N) NULL [4; 0]%Z [])
           (Req_WriteAudio Script.pcm 4)).
  - reflexivity.
  - discriminate.
Defined.

(** X5.  A request during which no encoder is called changes nothing: the
    handles (and the world) only ever change together with an encoder
    call. *)
Theorem silent_request_changes_nothing
    {World : Type} {E : FileExport World} (s : State World) (q : Request) :
  made_by (exec q) s = [] ->
  snd (exec q s) = s.
Proof.
  mm_request q s n; mm_trace; intros H; try discriminate H; reflexivity.
Qed.

Lemma silent_request_changes_nothing_witness :
  let s := mkState (Some 7%N) NULL [4; 0]%Z [] in
  snd (exec Req_WriteVideo s) = s.
Proof.
  apply (silent_request_changes_nothing
           (mkState (Some 7%N) NULL [4; 0]%Z []) Req_WriteVideo).
  reflexivity.
Defined.

(** X6.  In every state, what OpenSoundFile and OpenVideoFile return is what
    IsFileOpen answers right after. *)
Theorem open_result_is_IsFileOpen
    {World : Type} {E : FileExport World}
    (s : State World) (szFileName : string) :
  fst (Multimedia_IsFileOpen (snd (Multimedia_OpenSoundFile szFileName s)))
  = fst (Multimedia_OpenSoundFile szFileName s)
  /\ fst (Multimedia_IsFileOpen (snd (Multimedia_OpenVideoFile szFileName s)))
     = fst (Multimedia_OpenVideoFile szFileName s).
Proof.
  mm_handles s; mm_unfold; mm_calls; split;
    match goal with
    | |- context [not_null ?p] => destruct p; reflexivity
    end.
Qed.

(** X7.  Each request makes exactly one open call if it is an open request
    and none otherwise, at most one write call if it is a write request and
    none otherwise and, in a state with at most one handle set, at most one
    finalize call. *)
Theorem request_call_bounds
    {World : Type} {E : FileExport World} (s : State World) (q : Request) :
  at_most_one s ->
  let d := made_by (exec q) s in
  count is_open_call d = (if is_open_request q then 1 else 0)%nat
  /\ (count is_write_call d <= (if is_write_request q then 1 else 0))%nat
  /\ (count is_close_call d <= 1)%nat.
Proof.
  unfold at_most_one, count. intros H.
  mm_request q s n; cbn in H; try (destruct H; discriminate);
    clear H; cbn zeta; mm_trace; cbn; lia.
Qed.

Lemma request_call_bounds_witness :
  let s := mkState (Some 3%N) NULL [0; 7]%Z [] in
  let d := made_by (exec (Req_OpenVideoFile "v.avi")) s in
  count is_open_call d = 1%nat
  /\ (count is_write_call d <= 0)%nat
  /\ (count is_close_call d <= 1)%nat.
Proof.
  apply (request_call_bounds (mkState (Some 3%N) NULL [0; 7]%Z [])
           (Req_OpenVideoFile "v.avi")).
  right. reflexivity.
Defined.

(** ** Further properties: requests in sequence *)

Section Sequences.
Context {World : Type} {E : FileExport World}.

Lemma idle_step (q : Request) (s : State World) :
  some_open s = false ->
  is_open_request q = false ->
  exec q s = ((if is_close_request q then TRUE else 0), s)
  /\ made_by (exec q) s = [].
Proof.
  unfold some_open. intros Hs Hq.
  mm_request q s n; try discriminate Hq; try discriminate Hs;
    mm_trace; split; reflexivity.
Qed.

End Sequences.

(** X8.  With no file open, as long as no open request is made nothing
    reaches the encoders and the state stays as it is: every CloseFile
    returns TRUE, and every IsFileOpen, WriteAudio and WriteVideo
    returns 0. *)
Theorem idle_until_next_open
    {World : Type} {E : FileExport World}
    (s : State World) (qs : list Request) :
  some_open s = false ->
  forallb (fun q => negb (is_open_request q)) qs = true ->
  run qs s = s
  /\ Forall (fun st =>
               calls st = []
               /\ returned st
                  = (if is_close_request (request st) then TRUE else 0))
       (fst (history qs s)).
Proof.
  intros Hs. induction qs as [| q qs IH]; intros Hqs; simpl.
  - split; [reflexivity | constructor].
  - cbn [forallb] in Hqs. apply andb_prop in Hqs as [Hq Hqs].
    apply negb_true_iff in Hq.
    destruct (idle_step q s Hs Hq) as [Hexec Hmade].
    specialize (IH Hqs) as [Hrun Hhist].
    unfold step. rewrite Hexec, Hmade. cbn [fst snd].
    destruct (history qs s) as [h s''] eqn:Hh. cbn [fst] in *.
    split; [exact Hrun |].
    constructor; [split; reflexivity | exact Hhist].
Qed.

Lemma idle_until_next_open_witness :
  let s := snd (exec Req_WriteVideo
                  (mkState NULL (Some 9%N) [0; 1; 5; 5]%Z [])) in
  let qs := [Req_WriteAudio Script.pcm 4; Req_WriteVideo; Req_IsFileOpen;
             Req_CloseFile] in
  run qs s = s
  /\ Forall (fun st =>
               calls st = []
               /\ returned st
                  = (if is_close_request (request st) then TRUE else 0))
       (fst (history qs s)).
Proof.
  apply (idle_until_next_open
           (snd (exec Req_WriteVideo
                   (mkState NULL (Some 9%N) [0; 1; 5; 5]%Z [])))
           [Req_WriteAudio Script.pcm 4; Req_WriteVideo; Req_IsFileOpen;
            Req_CloseFile]);
    reflexivity.
Defined.

(** X9.  Open, then close: after a successful OpenSoundFile
    (OpenVideoFile), CloseFile makes one encoder call, the WAV (AVI)
    finalize of the very stream the open call returned, returns what that
    call reported and leaves no file open. *)
Theorem open_then_close
    {World : Type} {E : FileExport World}
    (s : State World) (szFileName : string) :
  (fst (Multimedia_OpenSoundFile szFileName s) = TRUE ->
   let s1 := snd (Multimedia_OpenSoundFile szFileName s) in
   exists f,
     In (Call_WAV_OpenFile szFileName (Some f))
        (made_by (Multimedia_OpenSoundFile szFileName) s)
     /\ made_by Multimedia_CloseFile s1
        = [Call_WAV_CloseFile (Some f) (fst (Multimedia_CloseFile s1))]
     /\ statics (snd (Multimedia_CloseFile s1)) = (NULL, NULL))
  /\ (fst (Multimedia_OpenVideoFile szFileName s) = TRUE ->
      let s1 := snd (Multimedia_OpenVideoFile szFileName s) in
      exists g,
        In (Call_AVI_OpenFile szFileName (Some g))
           (made_by (Multimedia_OpenVideoFile szFileName) s)
        /\ made_by Multimedia_CloseFile s1
           = [Call_AVI_CloseFile (Some g) (fst (Multimedia_CloseFile s1))]
        /\ statics (snd (Multimedia_CloseFile s1)) = (NULL, NULL)).
Proof.
  unfold statics. cbn zeta.
  split; mm_handles s; unfold made_by; mm_unfold; mm_calls;
    match goal with
    | |- context [int_of_bool (not_null ?p)] => destruct p as [h |]
    end; cbn [int_of_bool not_null]; intros H; try discriminate H;
    unfold NULL in *; mm_calls;
    rewrite ?skipn_app_length;
    repeat rewrite <- app_assoc;
    rewrite ?skipn_app_length; cbn [app];
    exists h; repeat split; auto using in_eq, in_cons.
Qed.

Lemma open_then_close_witness :
  let s := mkState NULL (Some 9%N) [1; 7; 0]%Z [] in
  let s1 := snd (Multimedia_OpenSoundFile "a.wav" s) in
  exists f,
    In (Call_WAV_OpenFile "a.wav" (Some f))
       (made_by (Multimedia_OpenSoundFile "a.wav") s)
    /\ made_by Multimedia_CloseFile s1
       = [Call_WAV_CloseFile (Some f) (fst (Multimedia_CloseFile s1))]
    /\ statics (snd (Multimedia_CloseFile s1)) = (NULL, NULL).
Proof.
  apply (proj1 (open_then_close
                  (mkState NULL (Some 9%N) [1; 7; 0]%Z []) "a.wav")).
  reflexivity.
Defined.

(** X10.  During an audio-only recording video frames are dropped: after a
    successful OpenSoundFile, WriteVideo returns 0, calls no encoder and
    changes nothing, and the sound file stays open. *)
Theorem video_frame_dropped_in_audio_session
    {World : Type} {E : FileExport World}
    (s : State World) (szFileName : string) :
  fst (Multimedia_OpenSoundFile szFileName s) = TRUE ->
  let s1 := snd (Multimedia_OpenSoundFile szFileName s) in
  Multimedia_WriteVideo s1 = (0, s1)
  /\ fst (Multimedia_IsFileOpen s1) = TRUE.
Proof.
  cbn zeta.
  mm_handles s; mm_unfold; mm_calls;
    match goal with
    | |- context [int_of_bool (not_null ?p)] => destruct p as [h |]
    end; cbn [int_of_bool not_null]; intros H; try discriminate H;
    split; reflexivity.
Qed.

Lemma video_frame_dropped_in_audio_session_witness :
  let s1 := snd (Multimedia_OpenSoundFile "a.wav" (initial [7; 100]%Z)) in
  Multimedia_WriteVideo s1 = (0, s1)
  /\ fst (Multimedia_IsFileOpen s1) = TRUE.
Proof.
  apply (video_frame_dropped_in_audio_session (initial [7; 100]%Z) "a.wav").
  reflexivity.
Defined.

(** X11.  A write request that returns 0 either did nothing at all (no
    encoder call, state unchanged) or went through a failed encoder write
    and left no file open: with IsFileOpen still TRUE afterwards, a zero
    return means nothing was written and nothing was lost. *)
Theorem zero_write_is_noop_or_close
    {World : Type} {E : FileExport World} (s : State World) (q : Request) :
  is_write_request q = true ->
  fst (exec q s) = 0 ->
  (made_by (exec q) s = [] /\ snd (exec q s) = s)
  \/ (existsb failed_write (made_by (exec q) s) = true
      /\ some_open (snd (exec q s)) = false).
Proof.
  intros Hq. unfold some_open.
  mm_request q s n; try discriminate Hq; clear Hq;
    mm_trace; intros H; try contradiction;
    try (left; split; reflexivity);
    right; cbn [existsb failed_write]; rewrite H; split; reflexivity.
Qed.

Lemma zero_write_is_noop_or_close_witness :
  let s := mkState (Some 7%N) NULL [0; 1]%Z [] in
  let q := Req_WriteAudio Script.pcm 4 in
  (made_by (exec q) s = [] /\ snd (exec q s) = s)
  \/ (existsb failed_write (made_by (exec q) s) = true
      /\ some_open (snd (exec q s)) = false).
Proof.
  apply (zero_write_is_noop_or_close
           (mkState (Some 7%N) NULL [0; 1]%Z [])
           (Req_WriteAudio Script.pcm 4));
    reflexivity.
Defined.
